(** * couchdb_user: reconciliation of one CouchDB user account

    Shallow embedding of [database/misc/couchdb_user.py].

    Conventions of the embedding.
    - Python values that travel through the module (JSON values of the user
      document, keyword arguments, payload fields) are the type [value]:
      None, booleans, integers, strings and lists of strings (the fields the
      module reads hold no nested object and no float).  Python 2 [str] and
      [unicode] are identified (a string is its UTF-8 bytes), so
      [salt.encode('utf-8')] is the identity.
    - A Python dict ([userobj], [create_args], [data]) is a
      [gmap string value].
    - The HTTP layer ([urls.open_url]) is an oracle from requests to
      responses; every request that is sent is appended to a log.  An url is
      kept as its components instead of the formatted text.
    - [passlib]'s [pbkdf2] is a parameter of the development.
    - Exceptions are explicit: [Raise] in pure code, [Thrown] in code that
      talks to the server; [module.fail_json] and [module.exit_json] end the
      run ([SystemExit] is not an [Exception], so no handler catches it). *)

From Stdlib Require Import ZArith String Ascii.
From stdpp Require Import gmap strings list fin_maps.

Local Open Scope string_scope.

(** ** Python values *)

Inductive value :=
  | VNone
  | VBool (b : bool)
  | VInt (z : Z)
  | VStr (s : string)
  | VList (l : list string).

#[global] Instance value_eq_dec : EqDecision value.
Proof. solve_decision. Defined.

(** Python truth value, as used by [and], [any] and [all]. *)
Definition truthy (v : value) : bool :=
  match v with
  | VNone => false
  | VBool b => b
  | VInt z => negb (Z.eqb z 0)
  | VStr s => negb (String.eqb s "")
  | VList l => match l with [] => false | _ => true end
  end.

Definition is_None (v : value) : bool :=
  match v with VNone => true | _ => false end.

(** ** Exceptions and fallible pure code *)

Inductive exn :=
  | HTTPError (code : Z)
  | URLError
  | KeyError (key : string)
  | TypeError (msg : string)
  | ValueError (msg : string).

#[global] Instance exn_eq_dec : EqDecision exn.
Proof. solve_decision. Defined.

Inductive res (A : Type) :=
  | Ok (a : A)
  | Raise (e : exn).
Arguments Ok {A} a.
Arguments Raise {A} e.

#[global] Instance res_ret : MRet res := fun _ a => Ok a.
#[global] Instance res_bind : MBind res := fun _ _ f m =>
  match m with
  | Ok a => f a
  | Raise e => Raise e
  end.

(** [d[k]] on a dict. *)
Definition getitem (d : gmap string value) (k : string) : res value :=
  match d !! k with
  | Some v => Ok v
  | None => Raise (KeyError k)
  end.

(** [d.get(k, None)] and the lookup of a keyword argument that defaults to
    [None]. *)
Definition get_or_None (d : gmap string value) (k : string) : value :=
  default VNone (d !! k).

(** [set(v)]: a list gives the set of its elements, a string the set of its
    characters, the other values are not iterable. *)
Definition py_set (v : value) : res (gset string) :=
  match v with
  | VList l => Ok (list_to_set l)
  | VStr s => Ok (list_to_set ((fun c => String c "") <$> list_ascii_of_string s))
  | _ => Raise (TypeError "object is not iterable")
  end.

(** [binascii.hexlify] *)
Definition hex_digit (n : N) : ascii :=
  match n with
  | 0 => "0" | 1 => "1" | 2 => "2" | 3 => "3" | 4 => "4" | 5 => "5"
  | 6 => "6" | 7 => "7" | 8 => "8" | 9 => "9" | 10 => "a" | 11 => "b"
  | 12 => "c" | 13 => "d" | 14 => "e" | _ => "f"
  end%N%char.

Fixpoint hexlify (s : string) : string :=
  match s with
  | EmptyString => EmptyString
  | String c s' =>
      String (hex_digit (N_of_ascii c / 16))
        (String (hex_digit (N_of_ascii c mod 16)) (hexlify s'))
  end.

(** ** Requests, the log and the module's exits *)

Record url := {
  url_host : string;
  url_port : Z;
  url_user : value;
  url_rev : option value
}.

Inductive http_method := GET | PUT | DELETE.

Record request := {
  req_method : http_method;
  req_url : url;
  req_data : option (gmap string value);
  url_username : option string;
  url_password : option string
}.

Inductive message :=
  | error_getting_user (e : exn)
  | error_deleting_user (e : exn)
  | error_creating_user (e : exn)
  | unsupported_password_scheme (scheme : value).

Inductive report :=
  | exit_report (changed : bool) (user : string)
  | fail_report (msg : message).

Inductive ctl (A : Type) :=
  | Done (a : A)
  | Thrown (e : exn)
  | Exited (r : report).
Arguments Done {A} a.
Arguments Thrown {A} e.
Arguments Exited {A} r.

(** Code that talks to the server: the log of the requests sent so far is
    threaded through. *)
Definition M (A : Type) : Type := list request → list request * ctl A.

#[global] Instance M_ret : MRet M := fun _ a log => (log, Done a).
#[global] Instance M_bind : MBind M := fun _ _ f m log =>
  match m log with
  | (log', Done a) => f a log'
  | (log', Thrown e) => (log', Thrown e)
  | (log', Exited r) => (log', Exited r)
  end.

Definition throw {A} (e : exn) : M A := fun log => (log, Thrown e).

Definition lift {A} (r : res A) : M A :=
  match r with
  | Ok a => mret a
  | Raise e => throw e
  end.

(** [try: m  except Exception as e: h e] *)
Definition try_except {A} (m : M A) (h : exn → M A) : M A := fun log =>
  match m log with
  | (log', Thrown e) => h e log'
  | r => r
  end.

Definition fail_json {A} (msg : message) : M A :=
  fun log => (log, Exited (fail_report msg)).

Definition exit_json {A} (changed : bool) (user : string) : M A :=
  fun log => (log, Exited (exit_report changed user)).

Inductive state_choice := present | absent.

Record module_params := {
  param_login_user : option string;
  param_login_password : option string;
  param_login_host : string;
  param_login_port : Z;
  param_name : string;
  param_password : option string;
  param_roles : option (list string);
  param_state : state_choice
}.

(** ** The module *)

Section couchdb_user.

(** The server: what [urls.open_url] answers to a request (the decoded JSON
    body, or the exception it raises). *)
Variable server : request → res (gmap string value).

(** [passlib.utils.pbkdf2.pbkdf2 secret salt rounds] *)
Variable pbkdf2 : string → value → value → res string.

Definition open_url (r : request) : M (gmap string value) := fun log =>
  ((log ++ [r])%list,
   match server r with
   | Ok body => Done body
   | Raise e => Thrown e
   end).

Definition couchdb_user_url (host : string * Z) (username : value) : url :=
  {| url_host := host.1; url_port := host.2;
     url_user := username; url_rev := None |}.

Definition with_rev (u : url) (rev : value) : url :=
  {| url_host := url_host u; url_port := url_port u;
     url_user := url_user u; url_rev := Some rev |}.

Definition couchdb_user_get (host : string * Z)
    (credentials : option string * option string) (username : string)
    : M (option (gmap string value)) :=
  let url := couchdb_user_url host (VStr username) in
  fun log =>
    match open_url {| req_method := GET; req_url := url; req_data := None;
                      url_username := credentials.1;
                      url_password := credentials.2 |} log with
    | (log', Thrown (HTTPError code)) =>
        if Z.eqb code 404 then (log', Done None)
        else (log', Thrown (HTTPError code))
    | (log', Thrown e) => (log', Thrown e)
    | (log', Exited r) => (log', Exited r)
    | (log', Done obj) => (log', Done (Some obj))
    end.

Definition couchdb_user_delete (host : string * Z)
    (credentials : option string * option string)
    (userobj : gmap string value) : M bool :=
  name ← lift (getitem userobj "name");
  let url := couchdb_user_url host name in
  rev ← lift (getitem userobj "_rev");
  let url := with_rev url rev in
  _ ← open_url {| req_method := DELETE; req_url := url; req_data := None;
                  url_username := credentials.1;
                  url_password := credentials.2 |};
  mret true.

Definition couchdb_user_create (host : string * Z)
    (credentials : option string * option string) (username : string)
    (password roles rev derived_key salt iterations : value) : M bool :=
  let url := couchdb_user_url host (VStr username) in
  let url := if is_None rev then url else with_rev url rev in
  let roles := if is_None roles then VList [] else roles in
  match roles with
  | VList _ =>
      let data : gmap string value :=
        <["type" := VStr "user"]>
          (<["roles" := roles]> (<["name" := VStr username]> ∅)) in
      if negb (is_None password) && negb (is_None derived_key)
      then throw (ValueError "pass either password or derived_key")
      else
        let iterations := if is_None iterations then VInt 10 else iterations in
        if (truthy derived_key || truthy salt)
           && negb (truthy derived_key && truthy salt)
        then throw (ValueError "one of derived_key or salt is missing")
        else
          let data :=
            if negb (is_None password) then <["password" := password]> data
            else if negb (is_None derived_key) then
              <["iterations" := iterations]>
                (<["salt" := salt]> (<["derived_key" := derived_key]> data))
            else data in
          _ ← open_url {| req_method := PUT; req_url := url;
                          req_data := Some data;
                          url_username := credentials.1;
                          url_password := credentials.2 |};
          mret true
  | _ => throw (TypeError "roles should be a list or tuple")
  end.

(** [rounds] is [None] when the caller leaves the argument out. *)
Definition couchdb_user_valid_password (plaintext : string)
    (salt hash_ : value) (rounds : option value) : res bool :=
  let rounds := default (VInt 10) rounds in
  hashed ← pbkdf2 plaintext salt rounds;
  mret (bool_decide (VStr (hexlify hashed) = hash_)).

(** The body of the [else] branch of [main] that checks password and roles
    of an existing account; the result is the new value of [changed]. *)
Definition check_password_and_roles (host : string * Z)
    (credentials : option string * option string) (username : string)
    (password : option string) (roles : list string)
    (userobj : gmap string value) : M bool :=
  let create_args : gmap string value := ∅ in
  let password_scheme := get_or_None userobj "password_scheme" in
  _ ← (if truthy password_scheme
          && bool_decide (password_scheme ≠ VStr "pbkdf2")
       then fail_json (unsupported_password_scheme password_scheme)
       else mret tt);
  create_args ←
    match password with
    | Some pw =>
        match userobj !! "derived_key" with
        | Some _ =>
            salt ← lift (getitem userobj "salt");
            derived_key ← lift (getitem userobj "derived_key");
            iterations ← lift (getitem userobj "iterations");
            valid_password ←
              lift (couchdb_user_valid_password pw salt derived_key
                      (Some iterations));
            mret (if negb valid_password
                  then <["password" := VStr pw]> create_args
                  else create_args)
        | None => mret (<["password" := VStr pw]> create_args)
        end
    | None =>
        match userobj !! "derived_key" with
        | Some _ => mret (<["password" := VNone]> create_args)
        | None => mret create_args
        end
    end;
  current ← lift (getitem userobj "roles");
  current ← lift (py_set current);
  create_args ←
    (if bool_decide (current ≠ list_to_set roles) then
       let create_args := <["roles" := VList roles]> create_args in
       match userobj !! "derived_key", create_args !! "password" with
       | Some _, None =>
           derived_key ← lift (getitem userobj "derived_key");
           let create_args := <["derived_key" := derived_key]> create_args in
           salt ← lift (getitem userobj "salt");
           let create_args := <["salt" := salt]> create_args in
           iterations ← lift (getitem userobj "iterations");
           mret (<["iterations" := iterations]> create_args)
       | _, _ => mret create_args
       end
     else mret create_args);
  if bool_decide (create_args ≠ ∅) then
    rev ← lift (getitem userobj "_rev");
    couchdb_user_create host credentials username
      (get_or_None create_args "password")
      (get_or_None create_args "roles")
      rev
      (get_or_None create_args "derived_key")
      (get_or_None create_args "salt")
      (get_or_None create_args "iterations")
  else mret false.

Definition normalize_roles (roles : option (list string)) : list string :=
  let roles := default [] roles in
  if bool_decide (roles = [""]) then [] else roles.

Definition main (p : module_params) : M unit :=
  let username := param_name p in
  let password := param_password p in
  let roles := normalize_roles (param_roles p) in
  let state := param_state p in
  let host := (param_login_host p, param_login_port p) in
  let credentials := (param_login_user p, param_login_password p) in
  userobj ←
    try_except (couchdb_user_get host credentials username)
      (fun e => fail_json (error_getting_user e));
  changed ←
    match userobj with
    | Some userobj =>
        match state with
        | absent =>
            try_except (couchdb_user_delete host credentials userobj)
              (fun e => fail_json (error_deleting_user e))
        | present =>
            check_password_and_roles host credentials username password
              roles userobj
        end
    | None =>
        match state with
        | present =>
            try_except
              (couchdb_user_create host credentials username
                 (from_option VStr VNone password) (VList roles)
                 VNone VNone VNone VNone)
              (fun e => fail_json (error_creating_user e))
        | absent => mret false
        end
    end;
  exit_json changed username.

(** One run of the module from an empty log: the requests sent, in order,
    and how the run ended. *)
Definition run (p : module_params) : list request * ctl unit := main p [].

End couchdb_user.

(** ** Vocabulary of the statements *)

Definition host_of (p : module_params) : string * Z :=
  (param_login_host p, param_login_port p).

Definition credentials_of (p : module_params) : option string * option string :=
  (param_login_user p, param_login_password p).

Definition send (p : module_params) (m : http_method) (u : url)
    (data : option (gmap string value)) : request :=
  {| req_method := m; req_url := u; req_data := data;
     url_username := param_login_user p;
     url_password := param_login_password p |}.

(** The read every run starts with. *)
Definition get_request (p : module_params) : request :=
  send p GET
    {| url_host := param_login_host p; url_port := param_login_port p;
       url_user := VStr (param_name p); url_rev := None |} None.

(** A write of [data] to the account's document, with the revision [rev]
    attached when there is one. *)
Definition put_request (p : module_params) (rev : option value)
    (data : gmap string value) : request :=
  send p PUT
    {| url_host := param_login_host p; url_port := param_login_port p;
       url_user := VStr (param_name p); url_rev := rev |} (Some data).

(** The deletion of the document named [name] at revision [rev]. *)
Definition delete_request (p : module_params) (name rev : value) : request :=
  send p DELETE
    {| url_host := param_login_host p; url_port := param_login_port p;
       url_user := name; url_rev := Some rev |} None.

(** The three fields every payload has. *)
Definition base_payload (username : string) (roles : list string)
    : gmap string value :=
  {[ "name" := VStr username; "roles" := VList roles; "type" := VStr "user" ]}.

Definition with_roles (p : module_params) (roles : option (list string))
    : module_params :=
  {| param_login_user := param_login_user p;
     param_login_password := param_login_password p;
     param_login_host := param_login_host p;
     param_login_port := param_login_port p;
     param_name := param_name p;
     param_password := param_password p;
     param_roles := roles;
     param_state := param_state p |}.

(** [password_scheme and password_scheme != 'pbkdf2'] on the fetched record *)
Definition unsupported_scheme (userobj : gmap string value) : bool :=
  truthy (get_or_None userobj "password_scheme")
  && bool_decide (get_or_None userobj "password_scheme" ≠ VStr "pbkdf2").

(** A payload has a plaintext password, or one of the derived-credential
    fields. *)
Definition has_key (k : string) (data : gmap string value) : bool :=
  bool_decide (is_Some (data !! k)).

Definition has_password (data : gmap string value) : bool :=
  has_key "password" data.

Definition has_derived (data : gmap string value) : bool :=
  has_key "derived_key" data || has_key "salt" data
  || has_key "iterations" data.

(** A request without payload, or whose payload does not hold both a
    plaintext password and a derived-credential field. *)
Definition exclusive_request (req : request) : bool :=
  match req_data req with
  | Some data => negb (has_password data && has_derived data)
  | None => true
  end.

(** Computations that keep the log free of a request with both kinds of
    field. *)
Definition keeps {A} (m : M A) : Prop :=
  ∀ log, Forall (λ r, exclusive_request r = true) log →
         Forall (λ r, exclusive_request r = true) (m log).1.



(** A result that reports no change: [False], an exception, or a failure
    report. *)
Definition no_change (c : ctl bool) : Prop :=
  match c with
  | Done changed => changed = false
  | Thrown _ => True
  | Exited (fail_report _) => True
  | Exited (exit_report _ _) => False
  end.

(** The end of a run that reports no change. *)
Definition ends_unchanged (p : module_params) (c : ctl unit) : Prop :=
  match c with
  | Done _ => False
  | Thrown _ => True
  | Exited (fail_report _) => True
  | Exited (exit_report changed user) =>
      changed = false ∧ user = param_name p
  end.

(** A payload for the account of [p]: name, type "user", a list of roles,
    and no plaintext password other than the desired one. *)
Definition payload_of (p : module_params) (data : gmap string value) : Prop :=
  data !! "name" = Some (VStr (param_name p))
  ∧ data !! "type" = Some (VStr "user")
  ∧ (∃ l, data !! "roles" = Some (VList l))
  ∧ (data !! "password" = None
     ∨ ∃ pw, param_password p = Some pw
             ∧ data !! "password" = Some (VStr pw)).

(** How a run ends after its write [w]: changed=true when the server
    accepts it, else what [on_error] makes of the exception. *)
Definition after_write (server : request → res (gmap string value))
    (p : module_params) (w : request) (on_error : exn → ctl unit)
    : ctl unit :=
  match server w with
  | Ok _ => Exited (exit_report true (param_name p))
  | Raise e => on_error e
  end.

(** The characters [hexlify] writes. *)
Definition lower_hex (c : ascii) : bool :=
  bool_decide (c ∈ list_ascii_of_string "0123456789abcdef").

(** The value of a hexadecimal digit, and the byte two digits stand for:
    the inverse of what [hexlify] does to one byte. *)
Definition hex_value (c : ascii) : N :=
  match c with
  | "0" => 0 | "1" => 1 | "2" => 2 | "3" => 3 | "4" => 4 | "5" => 5
  | "6" => 6 | "7" => 7 | "8" => 8 | "9" => 9 | "a" => 10 | "b" => 11
  | "c" => 12 | "d" => 13 | "e" => 14 | _ => 15
  end%char%N.

Definition byte_of_hex (hi lo : ascii) : ascii :=
  ascii_of_N (16 * hex_value hi + hex_value lo).

(** ** Concrete data for the runs below *)

(** The invocation [couchdb_user: name=bob ...] against localhost:5984. *)
Definition bob (password : option string) (roles : option (list string))
    (state : state_choice) : module_params :=
  {| param_login_user := None; param_login_password := None;
     param_login_host := "localhost"; param_login_port := 5984;
     param_name := "bob"; param_password := password;
     param_roles := roles; param_state := state |}.

(** A server that holds [userobj] and accepts every write. *)
Definition server_with (userobj : gmap string value)
    : request → res (gmap string value) :=
  fun req =>
    match req_method req with
    | GET => Ok userobj
    | _ => Ok ∅
    end.

(** A server without the account, that accepts every write. *)
Definition server_without : request → res (gmap string value) :=
  fun req =>
    match req_method req with
    | GET => Raise (HTTPError 404)
    | _ => Ok ∅
    end.

(** A stand-in for the key derivation in the concrete runs: the key is the
    secret itself. *)
Definition toy_pbkdf2 : string → value → value → res string :=
  fun secret _ _ => Ok secret.

(** bob's document: roles ["reader"], and the credential derived (by the
    stand-in) from the password "bar". *)
Definition bob_doc : gmap string value :=
  {[ "_id" := VStr "org.couchdb.user:bob";
     "_rev" := VStr "3-abc";
     "name" := VStr "bob";
     "type" := VStr "user";
     "roles" := VList ["reader"];
     "password_scheme" := VStr "pbkdf2";
     "derived_key" := VStr "626172";
     "salt" := VStr "s";
     "iterations" := VInt 10 ]}.

(** bob's document as an older server stored it: a derived credential
    without the iteration count. *)
Definition bob_doc_old : gmap string value := delete "iterations" bob_doc.

(** A server that holds [userobj] and answers every write with the
    exception [e]. *)
Definition server_rejecting (userobj : gmap string value) (e : exn)
    : request → res (gmap string value) :=
  fun req =>
    match req_method req with
    | GET => Ok userobj
    | _ => Raise e
    end.

(** A server without the account, that answers every write with [e]. *)
Definition server_without_rejecting (e : exn)
    : request → res (gmap string value) :=
  fun req =>
    match req_method req with
    | GET => Raise (HTTPError 404)
    | _ => Raise e
    end.

(** A server that answers every request with [e]. *)
Definition server_down (e : exn) : request → res (gmap string value) :=
  fun _ => Raise e.



(** A key derivation that refuses its arguments. *)
Definition refusing_pbkdf2 : string → value → value → res string :=
  fun _ _ _ => Raise (TypeError "rounds must be an integer").

(** bob's document before any password was set. *)
Definition bob_doc_plain : gmap string value :=
  delete "derived_key" (delete "salt" (delete "iterations" bob_doc)).

(** ** Properties *)

Section properties.

Variable server : request → res (gmap string value).
Variable pbkdf2 : string → value → value → res string.

Lemma data_base (username : string) (roles : list string) :
  base_payload username roles
  = <["type" := VStr "user"]>
      (<["roles" := VList roles]> (<["name" := VStr username]> ∅)).
Proof. reflexivity. Qed.

(** Lookups in a dict built by insertions under literal keys. *)
Ltac lookups :=
  unfold get_or_None;
  repeat first
    [ rewrite lookup_insert_eq
    | rewrite lookup_insert_ne by discriminate
    | rewrite lookup_empty ];
  cbn.

Ltac fold_requests p :=
  change {| req_method := GET;
            req_url := couchdb_user_url (host_of p) (VStr (param_name p));
            req_data := None;
            url_username := param_login_user p;
            url_password := param_login_password p |}
    with (get_request p) in *.

Lemma get_found p userobj log :
  server (get_request p) = Ok userobj →
  couchdb_user_get server (host_of p) (credentials_of p) (param_name p) log
  = ((log ++ [get_request p])%list, Done (Some userobj)).
Proof.
  intros H. unfold couchdb_user_get, open_url.
  cbn. fold_requests p. rewrite H. reflexivity.
Qed.

Lemma get_not_found p log :
  server (get_request p) = Raise (HTTPError 404) →
  couchdb_user_get server (host_of p) (credentials_of p) (param_name p) log
  = ((log ++ [get_request p])%list, Done None).
Proof.
  intros H. unfold couchdb_user_get, open_url.
  cbn. fold_requests p. rewrite H. reflexivity.
Qed.

(** C8.  When the fetch answers not-found and the desired state is present,
    the run sends, after the read, exactly one create: a PUT without
    revision whose payload is name, the desired roles (the roles parameter
    as it is given, [] when it is left out or is ['']) and type "user", plus
    the plaintext password when one is given; once the server accepts it the
    module exits with changed=true. *)
Theorem create_when_absent p body :
  param_state p = present →
  server (get_request p) = Raise (HTTPError 404) →
  let roles :=
    match param_roles p with
    | Some given => if bool_decide (given = [""]) then [] else given
    | None => []
    end in
  let data :=
    match param_password p with
    | Some pw => <["password" := VStr pw]> (base_payload (param_name p) roles)
    | None => base_payload (param_name p) roles
    end in
  server (put_request p None data) = Ok body →
  run server pbkdf2 p = ([get_request p; put_request p None data],
           Exited (exit_report true (param_name p))).
Proof.
  intros Hstate Hget roles data Hput.
  assert (normalize_roles (param_roles p) = roles) as Hnorm
    by (subst roles; unfold normalize_roles; by destruct (param_roles p)).
  unfold run, main, mbind, M_bind, try_except.
  change (param_login_host p, param_login_port p) with (host_of p).
  change (param_login_user p, param_login_password p) with (credentials_of p).
  rewrite (get_not_found _ _ Hget), Hstate, Hnorm. cbn.
  unfold mbind, M_bind, open_url, couchdb_user_url, host_of. cbn.
  subst data. unfold put_request, send in Hput.
  destruct (param_password p) as [pw|]; cbn;
    rewrite <- ?data_base; rewrite Hput; reflexivity.
Qed.

(** C9.  When the record exists and the desired state is absent, the run
    sends, after the read, exactly one DELETE, carrying the revision of the
    fetched record; once the server accepts it the module exits with
    changed=true. *)
Theorem delete_when_present p userobj name rev body :
  param_state p = absent →
  server (get_request p) = Ok userobj →
  userobj !! "name" = Some name →
  userobj !! "_rev" = Some rev →
  server (delete_request p name rev) = Ok body →
  run server pbkdf2 p
  = ([get_request p; delete_request p name rev],
     Exited (exit_report true (param_name p))).
Proof.
  intros Hstate Hget Hname Hrev Hdel.
  unfold run, main, mbind, M_bind, try_except.
  change (param_login_host p, param_login_port p) with (host_of p).
  change (param_login_user p, param_login_password p) with (credentials_of p).
  rewrite (get_found _ _ _ Hget), Hstate. cbn.
  unfold couchdb_user_delete, getitem. rewrite Hname, Hrev. cbn.
  unfold mbind, M_bind, open_url, couchdb_user_url, with_rev, host_of. cbn.
  unfold delete_request, send in Hdel. rewrite Hdel. reflexivity.
Qed.

(** C10.  The roles parameter [''] is normalised to the empty list before
    anything else happens, so the module run on [''] is the module run on
    []: the same requests and the same result, from any log. *)
Theorem roles_blank_is_empty p :
  normalize_roles (Some [""]) = []
  ∧ main server pbkdf2 (with_roles p (Some [""]))
    = main server pbkdf2 (with_roles p (Some [])).
Proof. split; reflexivity. Qed.

Lemma valid_password_true plaintext salt hash_ rounds :
  couchdb_user_valid_password pbkdf2 plaintext salt hash_ rounds = Ok true →
  ∃ hashed, pbkdf2 plaintext salt (default (VInt 10) rounds) = Ok hashed
            ∧ hash_ = VStr (hexlify hashed).
Proof.
  unfold couchdb_user_valid_password, mbind, res_bind, mret, res_ret.
  destruct (pbkdf2 plaintext salt _) as [hashed|e]; [|discriminate].
  intros H. exists hashed. split; [done|].
  injection H as H. by apply bool_decide_eq_true in H.
Qed.

(** C6.  The verifier answers true exactly when the hexadecimal encoding of
    the key derived from the candidate and the salt, for the rounds passed
    (10 when none is passed), equals the expected digest. *)
Theorem valid_password_iff plaintext salt hash_ rounds :
  let n := match rounds with Some r => r | None => VInt 10 end in
  (couchdb_user_valid_password pbkdf2 plaintext salt hash_ rounds = Ok true
   ↔ ∃ hashed, pbkdf2 plaintext salt n = Ok hashed
               ∧ VStr (hexlify hashed) = hash_)
  ∧ couchdb_user_valid_password pbkdf2 plaintext salt hash_ None
    = couchdb_user_valid_password pbkdf2 plaintext salt hash_ (Some (VInt 10)).
Proof.
  intros n. split; [|reflexivity].
  unfold couchdb_user_valid_password, mbind, res_bind, mret, res_ret.
  replace (default (VInt 10) rounds) with n by (by destruct rounds).
  destruct (pbkdf2 plaintext salt n) as [hashed|e]; split.
  - intros H. exists hashed. split; [done|].
    injection H as H. by apply bool_decide_eq_true in H.
  - intros (h & Hh & Heq). injection Hh as ->.
    f_equal. by apply bool_decide_eq_true.
  - discriminate.
  - intros (h & Hh & _). discriminate.
Qed.

(** What [couchdb_user_create] does to the log: nothing when it raises
    before the request, else one PUT is appended, whose payload does not
    hold both a plaintext password and a derived-credential field. *)
Lemma create_cases host credentials username
    password roles rev derived_key salt iterations log :
  let out :=
    couchdb_user_create server host credentials username
      password roles rev derived_key salt iterations log in
  (∃ e, out = (log, Thrown e))
  ∨ (∃ req data,
       out.1 = (log ++ [req])%list
       ∧ req_method req = PUT
       ∧ req_data req = Some data
       ∧ has_password data && has_derived data = false).
Proof.
  intros out. subst out. unfold couchdb_user_create.
  destruct (if is_None roles then VList [] else roles);
    try (left; eexists; reflexivity).
  destruct (negb (is_None password) && negb (is_None derived_key)) eqn:Hpd;
    [left; eexists; reflexivity|].
  destruct ((truthy derived_key || truthy salt)
            && negb (truthy derived_key && truthy salt));
    [left; eexists; reflexivity|].
  right. unfold mbind, M_bind, open_url. cbn.
  destruct (server _); cbn;
    (eexists; eexists; split; [reflexivity|]; split; [reflexivity|];
     split; [reflexivity|]);
    destruct (is_None password), (is_None derived_key); try discriminate;
    reflexivity.
Qed.

Lemma keeps_ret {A} (a : A) : keeps (mret a).
Proof. intros log H. exact H. Qed.

Lemma keeps_throw {A} e : keeps (@throw A e).
Proof. intros log H. exact H. Qed.

Lemma keeps_lift {A} (r : res A) : keeps (lift r).
Proof. destruct r; [apply keeps_ret|apply keeps_throw]. Qed.

Lemma keeps_fail_json {A} msg : keeps (@fail_json A msg).
Proof. intros log H. exact H. Qed.

Lemma keeps_exit_json {A} changed user : keeps (@exit_json A changed user).
Proof. intros log H. exact H. Qed.

Lemma keeps_bind {A B} (m : M A) (f : A → M B) :
  keeps m → (∀ a, keeps (f a)) → keeps (m ≫= f).
Proof.
  intros Hm Hf log H. specialize (Hm log H).
  unfold mbind, M_bind. destruct (m log) as [log' [a|e|r]]; cbn in *;
    [by apply Hf|done|done].
Qed.

Lemma keeps_try_except {A} (m : M A) (h : exn → M A) :
  keeps m → (∀ e, keeps (h e)) → keeps (try_except m h).
Proof.
  intros Hm Hh log H. specialize (Hm log H).
  unfold try_except. destruct (m log) as [log' [a|e|r]]; cbn in *;
    [done|by apply Hh|done].
Qed.

Lemma keeps_open_url req :
  exclusive_request req = true → keeps (open_url server req).
Proof.
  intros Hreq log H. unfold open_url. cbn.
  apply Forall_app. split; [done|]. by constructor.
Qed.

Lemma keeps_get host credentials username :
  keeps (couchdb_user_get server host credentials username).
Proof.
  intros log H. unfold couchdb_user_get, open_url. cbn.
  assert (Forall (λ r, exclusive_request r = true)
            (log ++ [{| req_method := GET;
                        req_url := couchdb_user_url host (VStr username);
                        req_data := None;
                        url_username := credentials.1;
                        url_password := credentials.2 |}])%list)
    by (apply Forall_app; split; [done|by constructor]).
  destruct (server _) as [body|[code| | | |]]; try done.
  by destruct (code =? 404)%Z.
Qed.

Lemma keeps_delete host credentials userobj :
  keeps (couchdb_user_delete server host credentials userobj).
Proof.
  unfold couchdb_user_delete.
  apply keeps_bind; [apply keeps_lift|intros name].
  apply keeps_bind; [apply keeps_lift|intros rev].
  apply keeps_bind; [by apply keeps_open_url|intros _; apply keeps_ret].
Qed.

Lemma keeps_create host credentials username
    password roles rev derived_key salt iterations :
  keeps (couchdb_user_create server host credentials username
           password roles rev derived_key salt iterations).
Proof.
  intros log H.
  destruct (create_cases host credentials username password roles rev
              derived_key salt iterations log)
    as [[e ->]|(req & data & -> & _ & Hdata & Hx)]; [done|].
  apply Forall_app. split; [done|]. constructor; [|done].
  unfold exclusive_request. by rewrite Hdata, Hx.
Qed.

Lemma keeps_check host credentials username password roles userobj :
  keeps (check_password_and_roles server pbkdf2 host credentials username
           password roles userobj).
Proof.
  unfold check_password_and_roles.
  repeat first
    [ apply keeps_ret | apply keeps_lift | apply keeps_fail_json
    | apply keeps_create
    | apply keeps_bind; [|intros ?]
    | match goal with
      | |- keeps (if ?b then _ else _) => destruct b
      | |- keeps (match ?x with _ => _ end) => destruct x
      end ].
Qed.

Lemma keeps_main p : keeps (main server pbkdf2 p).
Proof.
  unfold main.
  repeat first
    [ apply keeps_ret | apply keeps_lift | apply keeps_fail_json
    | apply keeps_exit_json | apply keeps_create | apply keeps_check
    | apply keeps_get | apply keeps_delete
    | apply keeps_try_except; [|intros ?]
    | apply keeps_bind; [|intros ?]
    | match goal with
      | |- keeps (match ?x with _ => _ end) => destruct x
      end ].
Qed.

(** C2.  Whatever its arguments, [couchdb_user_create] either raises
    before anything is sent, or sends one PUT whose payload does not hold
    both a plaintext password and a derived-credential field; with both
    [password] and [derived_key] given it raises.  Hence no request of any
    run of the module carries both. *)
Theorem create_password_xor_derived :
  (∀ host credentials username password roles rev derived_key salt
     iterations log,
     let out :=
       couchdb_user_create server host credentials username
         password roles rev derived_key salt iterations log in
     ((∃ e, out = (log, Thrown e))
      ∨ (∃ req data,
           out.1 = (log ++ [req])%list
           ∧ req_method req = PUT
           ∧ req_data req = Some data
           ∧ has_password data && has_derived data = false))
     ∧ (password ≠ VNone → derived_key ≠ VNone →
        ∃ e, out = (log, Thrown e)))
  ∧ (∀ p, Forall (λ r, exclusive_request r = true) (run server pbkdf2 p).1).
Proof.
  split.
  - intros host credentials username password roles rev derived_key salt
      iterations log out.
    split; [apply create_cases|].
    intros Hp Hd. subst out. unfold couchdb_user_create.
    destruct (if is_None roles then VList [] else roles);
      try (eexists; reflexivity).
    destruct password, derived_key; try done; eexists; reflexivity.
  - intros p. apply keeps_main. constructor.
Qed.

(** With the record found and the desired state present, the run is the
    read followed by the check of password and roles. *)
Lemma run_present_found p userobj :
  param_state p = present →
  server (get_request p) = Ok userobj →
  run server pbkdf2 p
  = match check_password_and_roles server pbkdf2 (host_of p)
            (credentials_of p) (param_name p) (param_password p)
            (normalize_roles (param_roles p)) userobj [get_request p] with
    | (log, Done changed) =>
        (log, Exited (exit_report changed (param_name p)))
    | (log, Thrown e) => (log, Thrown e)
    | (log, Exited r) => (log, Exited r)
    end.
Proof.
  intros Hstate Hget.
  unfold run, main, mbind, M_bind, try_except.
  change (param_login_host p, param_login_port p) with (host_of p).
  change (param_login_user p, param_login_password p) with (credentials_of p).
  rewrite (get_found _ _ _ Hget), Hstate. cbn.
  by destruct (check_password_and_roles _ _ _ _ _ _ _ _ _) as [? []].
Qed.

(** C3.  The record exists with a derived credential, the desired password
    is given and verifies against it, and the desired roles are the fetched
    roles: the read is the only request of the run (so no write, and no
    payload with the plaintext password), and the module exits with
    changed=false. *)
Theorem matching_password_no_write p userobj pw dk salt iterations rv :
  param_state p = present →
  server (get_request p) = Ok userobj →
  unsupported_scheme userobj = false →
  param_password p = Some pw →
  userobj !! "derived_key" = Some dk →
  userobj !! "salt" = Some salt →
  userobj !! "iterations" = Some iterations →
  couchdb_user_valid_password pbkdf2 pw salt dk (Some iterations) = Ok true →
  userobj !! "roles" = Some rv →
  py_set rv = Ok (list_to_set (normalize_roles (param_roles p))) →
  run server pbkdf2 p
  = ([get_request p], Exited (exit_report false (param_name p))).
Proof.
  intros Hstate Hget Hscheme Hpw Hdk Hsalt Hit Hvalid Hroles Hset.
  rewrite (run_present_found _ _ Hstate Hget).
  unfold check_password_and_roles, getitem.
  unfold unsupported_scheme in Hscheme.
  rewrite Hscheme, Hpw, Hdk, Hsalt, Hit, Hroles.
  unfold mbind, M_bind, mret, M_ret.
  cbn -[couchdb_user_valid_password py_set].
  rewrite Hvalid. cbn -[py_set]. rewrite Hset. cbn.
  rewrite !bool_decide_eq_false_2 by (intros H; by apply H).
  reflexivity.
Qed.

(** C7.  The record exists with a derived credential, no password is
    desired and the desired roles are the fetched roles: an update is sent
    all the same, its payload is exactly name, roles [] and type "user"
    (no password, no derived_key, salt or iterations, and the empty role
    list whatever the roles are), and once the server accepts it the module
    exits with changed=true. *)
Theorem no_password_same_roles_update p userobj dk rv rev body :
  param_state p = present →
  server (get_request p) = Ok userobj →
  unsupported_scheme userobj = false →
  param_password p = None →
  userobj !! "derived_key" = Some dk →
  userobj !! "roles" = Some rv →
  py_set rv = Ok (list_to_set (normalize_roles (param_roles p))) →
  userobj !! "_rev" = Some rev →
  let update :=
    put_request p (if is_None rev then None else Some rev)
      (base_payload (param_name p) []) in
  server update = Ok body →
  run server pbkdf2 p
  = ([get_request p; update], Exited (exit_report true (param_name p))).
Proof.
  intros Hstate Hget Hscheme Hpw Hdk Hroles Hset Hrev update Hput.
  rewrite (run_present_found _ _ Hstate Hget).
  unfold check_password_and_roles, getitem.
  unfold unsupported_scheme in Hscheme.
  rewrite Hscheme, Hpw, Hdk, Hroles, Hrev.
  unfold mbind, M_bind, mret, M_ret.
  cbn -[py_set]. rewrite Hset. cbn.
  rewrite bool_decide_eq_false_2 by (intros H; by apply H).
  rewrite bool_decide_eq_true_2 by apply insert_non_empty.
  cbn. unfold couchdb_user_create. lookups.
  unfold mbind, M_bind, open_url, couchdb_user_url, with_rev, host_of. cbn.
  subst update. unfold put_request, send in Hput.
  rewrite data_base in Hput.
  destruct rev; cbn in *; rewrite Hput; reflexivity.
Qed.


(** C5, as the code has it.  With the desired state present, a fetched
    record whose password scheme is set (a non-empty value) and is not
    'pbkdf2' makes the module fail with the unsupported-scheme message,
    and the read is the only request of the run. *)
Theorem unsupported_scheme_fails p userobj scheme :
  param_state p = present →
  server (get_request p) = Ok userobj →
  userobj !! "password_scheme" = Some scheme →
  truthy scheme = true →
  scheme ≠ VStr "pbkdf2" →
  run server pbkdf2 p
  = ([get_request p],
     Exited (fail_report (unsupported_password_scheme scheme))).
Proof.
  intros Hstate Hget Hscheme Htruthy Hne.
  rewrite (run_present_found _ _ Hstate Hget).
  unfold check_password_and_roles, get_or_None.
  rewrite Hscheme. cbn. rewrite Htruthy.
  rewrite bool_decide_eq_true_2 by done.
  reflexivity.
Qed.

(** A record with a derived credential but no iterations field, and a
    desired password: the lookup of the field raises, whatever the record,
    the password and the key derivation are. *)
Lemma no_iterations_key_error p userobj pw dk salt :
  param_state p = present →
  server (get_request p) = Ok userobj →
  unsupported_scheme userobj = false →
  param_password p = Some pw →
  userobj !! "derived_key" = Some dk →
  userobj !! "salt" = Some salt →
  userobj !! "iterations" = None →
  run server pbkdf2 p = ([get_request p], Thrown (KeyError "iterations")).
Proof.
  intros Hstate Hget Hscheme Hpw Hdk Hsalt Hit.
  rewrite (run_present_found _ _ Hstate Hget).
  unfold check_password_and_roles, getitem.
  unfold unsupported_scheme in Hscheme.
  rewrite Hscheme, Hpw, Hdk, Hsalt, Hit. reflexivity.
Qed.

(** *** The shape of every run *)

(** [couchdb_user_create] raises before the request, or sends exactly one
    PUT; what it returns is decided by the answer to that PUT. *)
Lemma create_shape host credentials username
    password roles rev derived_key salt iterations log :
  (∃ e, couchdb_user_create server host credentials username
          password roles rev derived_key salt iterations log
        = (log, Thrown e))
  ∨ (∃ l data,
       let req :=
         {| req_method := PUT;
            req_url :=
              {| url_host := host.1; url_port := host.2;
                 url_user := VStr username;
                 url_rev := if is_None rev then None else Some rev |};
            req_data := Some data;
            url_username := credentials.1;
            url_password := credentials.2 |} in
       couchdb_user_create server host credentials username
         password roles rev derived_key salt iterations log
       = ((log ++ [req])%list,
          match server req with
          | Ok _ => Done true
          | Raise e => Thrown e
          end)
       ∧ data !! "name" = Some (VStr username)
       ∧ data !! "type" = Some (VStr "user")
       ∧ data !! "roles" = Some (VList l)
       ∧ data !! "password"
         = (if is_None password then None else Some password)).
Proof.
  unfold couchdb_user_create.
  destruct (if is_None roles then VList [] else roles) as [| | | |l];
    try (left; eexists; reflexivity).
  destruct (negb (is_None password) && negb (is_None derived_key)) eqn:Hpd;
    [left; eexists; reflexivity|].
  destruct ((truthy derived_key || truthy salt)
            && negb (truthy derived_key && truthy salt));
    [left; eexists; reflexivity|].
  right. exists l.
  set (base := <["type" := VStr "user"]>
                 (<["roles" := VList l]> (<["name" := VStr username]> ∅))
               : gmap string value).
  exists (if negb (is_None password) then <["password" := password]> base
          else if negb (is_None derived_key) then
            <["iterations" :=
                if is_None iterations then VInt 10 else iterations]>
              (<["salt" := salt]> (<["derived_key" := derived_key]> base))
          else base).
  cbn zeta.
  unfold mbind, M_bind, open_url, couchdb_user_url, with_rev. cbn.
  split.
  - destruct (is_None rev); cbn; destruct (server _); reflexivity.
  - subst base.
    destruct (is_None password), (is_None derived_key); try discriminate;
      cbn; lookups; done.
Qed.

(** Case analysis on everything [check_password_and_roles] looks at: the
    fields of the record, the answer of the verifier, the comparison of the
    role sets. *)
Ltac check_step :=
  first
    [ match goal with
      | |- context [?m !! ?k] =>
          is_var m; destruct (m !! k) eqn:?
      end
    | match goal with
      | |- context [couchdb_user_valid_password ?f ?a ?b ?c ?d] =>
          destruct (couchdb_user_valid_password f a b c d) as [[|]|?] eqn:?
      end
    | match goal with
      | |- context [py_set ?v] => destruct (py_set v) eqn:?
      end
    | match goal with
      | |- context [bool_decide (?a ≠ list_to_set ?r)] =>
          destruct (bool_decide (a ≠ list_to_set r)) eqn:?
      end ].

Ltac check_cases :=
  cbn -[couchdb_user_valid_password py_set couchdb_user_create];
  repeat (check_step;
          cbn -[couchdb_user_valid_password py_set couchdb_user_create]);
  unfold get_or_None;
  repeat first
    [ rewrite lookup_insert_eq
    | rewrite lookup_insert_ne by discriminate
    | rewrite lookup_empty ];
  rewrite ?bool_decide_eq_true_2 by apply insert_non_empty;
  rewrite ?bool_decide_eq_false_2 by (intros H; by apply H);
  cbn -[couchdb_user_valid_password py_set couchdb_user_create].

(** The check of password and roles sends nothing and does not answer
    [True], or it is one call of [couchdb_user_create] at the fetched
    revision, whose password argument is [None] or the desired password. *)
Lemma check_shape host credentials username password roles userobj log :
  (∃ c, check_password_and_roles server pbkdf2 host credentials username
          password roles userobj log = (log, c)
        ∧ no_change c)
  ∨ (∃ rev pwv roles' dk salt it,
       userobj !! "_rev" = Some rev
       ∧ (pwv = VNone ∨ ∃ pw, password = Some pw ∧ pwv = VStr pw)
       ∧ check_password_and_roles server pbkdf2 host credentials username
           password roles userobj log
         = couchdb_user_create server host credentials username
             pwv roles' rev dk salt it log).
Proof.
  unfold check_password_and_roles, getitem.
  destruct (truthy _ && bool_decide _);
    [left; eexists; split; [reflexivity|exact I]|].
  unfold mbind, M_bind, mret, M_ret.
  destruct password as [pw|]; check_cases.
  all: try (left; eexists; split; [reflexivity|done]).
  all: try (left; eexists; split; [reflexivity|done]).
  all: right; do 6 eexists; (split; [reflexivity|split; [|reflexivity]]).
  all: first [left; reflexivity|right; eexists; split; reflexivity].
Qed.

(** Every run is the read alone, ending without a change, or the read and
    one write: the create of an absent account, the delete of a present one,
    or the update of a present one at its fetched revision.  A rejected
    create or delete is reported; a rejected update is an exception nothing
    catches. *)
Ltac case_server :=
  match goal with
  | |- context [server ?w] => destruct (server w); reflexivity
  end.

Lemma run_cases p :
  (∃ c, run server pbkdf2 p = ([get_request p], c) ∧ ends_unchanged p c)
  ∨ (∃ data,
       let w := put_request p None data in
       server (get_request p) = Raise (HTTPError 404)
       ∧ param_state p = present
       ∧ payload_of p data
       ∧ run server pbkdf2 p
         = ([get_request p; w],
            after_write server p w
              (λ e, Exited (fail_report (error_creating_user e)))))
  ∨ (∃ userobj name rev,
       let w := delete_request p name rev in
       server (get_request p) = Ok userobj
       ∧ param_state p = absent
       ∧ userobj !! "name" = Some name
       ∧ userobj !! "_rev" = Some rev
       ∧ run server pbkdf2 p
         = ([get_request p; w],
            after_write server p w
              (λ e, Exited (fail_report (error_deleting_user e)))))
  ∨ (∃ userobj rev data,
       let w := put_request p (if is_None rev then None else Some rev) data in
       server (get_request p) = Ok userobj
       ∧ param_state p = present
       ∧ userobj !! "_rev" = Some rev
       ∧ payload_of p data
       ∧ run server pbkdf2 p
         = ([get_request p; w], after_write server p w (λ e, Thrown e))).
Proof.
  destruct (server (get_request p)) as [userobj|e] eqn:Hget.
  - destruct (param_state p) eqn:Hstate.
    + rewrite (run_present_found _ _ Hstate Hget).
      destruct (check_shape (host_of p) (credentials_of p) (param_name p)
                  (param_password p) (normalize_roles (param_roles p))
                  userobj [get_request p])
        as [(c & -> & Hc)|(rev & pwv & roles' & dk & salt & it
                            & Hrev & Hpw & ->)].
      { left. destruct c as [[]|e|[]]; try done; eexists; split; done. }
      destruct (create_shape (host_of p) (credentials_of p) (param_name p)
                  pwv roles' rev dk salt it [get_request p])
        as [(e & ->)|(l & data & Hrun & Hname & Htype & Hroles & Hpass)].
      { left. eexists. split; done. }
      do 3 right. exists userobj, rev, data. cbn zeta.
      rewrite Hrun. unfold after_write, put_request, send, host_of,
        credentials_of. cbn.
      repeat split; try done.
      * by exists l.
      * rewrite Hpass. destruct Hpw as [->|(pw & Hp & ->)]; cbn;
          [by left|right; by exists pw].
      * case_server.
    + unfold run, main, mbind, M_bind, try_except.
      change (param_login_host p, param_login_port p) with (host_of p).
      change (param_login_user p, param_login_password p)
        with (credentials_of p).
      rewrite (get_found _ _ _ Hget), Hstate. cbn.
      unfold couchdb_user_delete, getitem.
      destruct (userobj !! "name") as [name|] eqn:Hname;
        [|left; eexists; split; done].
      destruct (userobj !! "_rev") as [rev|] eqn:Hrev;
        [|left; eexists; split; done].
      do 2 right. left. exists userobj, name, rev. cbn zeta.
      repeat split; try done.
      unfold mbind, M_bind, open_url, couchdb_user_url, with_rev, host_of,
        after_write, delete_request, send. cbn.
      case_server.
  - assert (Hother : (∀ code, e = HTTPError code → code ≠ 404%Z) →
                     ∃ c, run server pbkdf2 p = ([get_request p], c)
                          ∧ ends_unchanged p c).
    { intros Hcode. unfold run, main, mbind, M_bind, try_except.
      unfold couchdb_user_get, open_url. cbn.
      change {| req_method := GET;
                req_url := couchdb_user_url
                             (param_login_host p, param_login_port p)
                             (VStr (param_name p));
                req_data := None;
                url_username := param_login_user p;
                url_password := param_login_password p |}
        with (get_request p).
      rewrite Hget.
      destruct e as [code| | | |]; try (eexists; split; done).
      destruct (code =? 404)%Z eqn:Heq; [|eexists; split; done].
      apply Z.eqb_eq in Heq. by destruct (Hcode code eq_refl). }
    destruct (decide (e = HTTPError 404)) as [->|Hne];
      [|left; apply Hother; congruence].
    unfold run, main, mbind, M_bind, try_except.
    change (param_login_host p, param_login_port p) with (host_of p).
    change (param_login_user p, param_login_password p)
      with (credentials_of p).
    rewrite (get_not_found _ _ Hget).
    destruct (param_state p) eqn:Hstate; [|left; eexists; split; done].
    cbn -[couchdb_user_create].
    destruct (create_shape (host_of p) (credentials_of p) (param_name p)
                (from_option VStr VNone (param_password p))
                (VList (normalize_roles (param_roles p)))
                VNone VNone VNone VNone [get_request p])
      as [(e & ->)|(l & data & -> & Hname & Htype & Hroles & Hpass)].
    { left. eexists. split; done. }
    right. left. exists data. cbn zeta.
    repeat split; try done.
    + by exists l.
    + rewrite Hpass. destruct (param_password p) as [pw|]; cbn;
        [right; by exists pw|by left].
    + unfold after_write, put_request, send, host_of, credentials_of. cbn.
      case_server.
Qed.

(** X1.  A run sends the read of the account and then at most one further
    request, which is a PUT or a DELETE: never a second read, never two
    writes. *)
Theorem one_read_then_at_most_one_write p :
  (run server pbkdf2 p).1 = [get_request p]
  ∨ ∃ w, (run server pbkdf2 p).1 = [get_request p; w]
         ∧ req_method w ≠ GET.
Proof.
  destruct (run_cases p)
    as [(c & -> & _)|[(data & _ & _ & _ & ->)
       |[(u & n & r & _ & _ & _ & _ & ->)|(u & r & d & _ & _ & _ & _ & ->)]]];
    [by left|right; eexists; split; [reflexivity|discriminate]..].
Qed.

(** X2.  When the module exits normally, the user it reports is the account
    name, and changed is true exactly when a write was sent and the server
    accepted it. *)
Theorem changed_iff_write_accepted p changed user :
  (run server pbkdf2 p).2 = Exited (exit_report changed user) →
  user = param_name p
  ∧ (changed = true
     ↔ ∃ w body, (run server pbkdf2 p).1 = [get_request p; w]
                 ∧ server w = Ok body).
Proof.
  destruct (run_cases p)
    as [(c & -> & Hc)|[(data & _ & _ & _ & ->)
       |[(u & n & r & _ & _ & _ & _ & ->)|(u & r & d & _ & _ & _ & _ & ->)]]];
    cbn; unfold after_write.
  - intros ->. cbn in Hc. destruct Hc as [-> ->]. split; [done|].
    split; [done|]. by intros (w & body & ? & _).
  - destruct (server (put_request _ _ _)) as [body|e] eqn:Hw; [|done].
    intros [= <- <-]. split; [done|]. split; [|done].
    intros _. by eexists _, body.
  - destruct (server (delete_request _ _ _)) as [body|e] eqn:Hw; [|done].
    intros [= <- <-]. split; [done|]. split; [|done].
    intros _. by eexists _, body.
  - destruct (server (put_request _ _ _)) as [body|e] eqn:Hw; [|done].
    intros [= <- <-]. split; [done|]. split; [|done].
    intros _. by eexists _, body.
Qed.

(** X3.  Every request of a run goes to the configured host and port with
    the configured login; the read has no body, and so has a delete. *)
Theorem requests_use_login p :
  Forall (λ r, url_host (req_url r) = param_login_host p
               ∧ url_port (req_url r) = param_login_port p
               ∧ url_username r = param_login_user p
               ∧ url_password r = param_login_password p
               ∧ (req_method r ≠ PUT → req_data r = None))
    (run server pbkdf2 p).1.
Proof.
  destruct (run_cases p)
    as [(c & -> & _)|[(data & _ & _ & _ & ->)
       |[(u & n & r & _ & _ & _ & _ & ->)|(u & r & d & _ & _ & _ & _ & ->)]]];
    cbn; repeat constructor; done.
Qed.

(** X4.  Every payload a run sends names the account, has type "user" and a
    list of roles. *)
Theorem payloads_name_the_account p :
  Forall (λ r, match req_data r with
               | Some data =>
                   req_method r = PUT
                   ∧ data !! "name" = Some (VStr (param_name p))
                   ∧ data !! "type" = Some (VStr "user")
                   ∧ ∃ l, data !! "roles" = Some (VList l)
               | None => True
               end)
    (run server pbkdf2 p).1.
Proof.
  destruct (run_cases p)
    as [(c & -> & _)|[(data & _ & _ & (? & ? & ? & _) & ->)
       |[(u & n & r & _ & _ & _ & _ & ->)
        |(u & r & d & _ & _ & _ & (? & ? & ? & _) & ->)]]];
    cbn; repeat constructor; done.
Qed.

(** X5.  The only plaintext password a payload can hold is the desired
    one: with no desired password no payload has a password field, and with
    one any password field is that password. *)
Theorem password_only_when_desired p :
  Forall (λ r, match req_data r with
               | Some data =>
                   data !! "password" = None
                   ∨ ∃ pw, param_password p = Some pw
                           ∧ data !! "password" = Some (VStr pw)
               | None => True
               end)
    (run server pbkdf2 p).1.
Proof.
  destruct (run_cases p)
    as [(c & -> & _)|[(data & _ & _ & (_ & _ & _ & ?) & ->)
       |[(u & n & r & _ & _ & _ & _ & ->)
        |(u & r & d & _ & _ & _ & (_ & _ & _ & ?) & ->)]]];
    cbn; repeat (apply Forall_cons; split); try apply Forall_nil; cbn;
    done.
Qed.

(** X6.  With the account found and the desired state present, a write of
    the run is a PUT that carries the revision of the fetched record (none
    when that revision is null). *)
Theorem update_carries_fetched_revision p userobj w :
  server (get_request p) = Ok userobj →
  param_state p = present →
  (run server pbkdf2 p).1 = [get_request p; w] →
  req_method w = PUT
  ∧ ∃ rev, userobj !! "_rev" = Some rev
           ∧ url_rev (req_url w) = (if is_None rev then None else Some rev).
Proof.
  intros Hget Hstate.
  destruct (run_cases p)
    as [(c & -> & _)|[(data & Hget' & _)
       |[(u & n & r & _ & Hstate' & _)
        |(u & r & d & Hget' & _ & Hrev & _ & ->)]]];
    [done|congruence|congruence|].
  cbn. intros [= <-]. split; [done|].
  exists r. split; [congruence|done].
Qed.

(** X7.  An update the server rejects (a conflict, say) is not reported
    through fail_json: the exception leaves the module uncaught. *)
Theorem rejected_update_is_uncaught p userobj w e :
  server (get_request p) = Ok userobj →
  param_state p = present →
  (run server pbkdf2 p).1 = [get_request p; w] →
  server w = Raise e →
  (run server pbkdf2 p).2 = Thrown e.
Proof.
  intros Hget Hstate.
  destruct (run_cases p)
    as [(c & -> & _)|[(data & Hget' & _)
       |[(u & n & r & _ & Hstate' & _)
        |(u & r & d & Hget' & _ & Hrev & _ & ->)]]];
    [done|congruence|congruence|].
  cbn. intros [= <-] Hw. unfold after_write. by rewrite Hw.
Qed.

(** X8.  A create the server rejects is reported as "error creating
    user". *)
Theorem rejected_create_is_reported p w e :
  server (get_request p) = Raise (HTTPError 404) →
  (run server pbkdf2 p).1 = [get_request p; w] →
  server w = Raise e →
  (run server pbkdf2 p).2
  = Exited (fail_report (error_creating_user e)).
Proof.
  intros Hget.
  destruct (run_cases p)
    as [(c & -> & _)|[(data & _ & _ & _ & ->)
       |[(u & n & r & Hget' & _)|(u & r & d & Hget' & _)]]];
    [done| |congruence|congruence].
  cbn. intros [= <-] Hw. unfold after_write. by rewrite Hw.
Qed.

(** X9.  A delete the server rejects is reported as "error deleting
    user". *)
Theorem rejected_delete_is_reported p userobj w e :
  server (get_request p) = Ok userobj →
  param_state p = absent →
  (run server pbkdf2 p).1 = [get_request p; w] →
  server w = Raise e →
  (run server pbkdf2 p).2
  = Exited (fail_report (error_deleting_user e)).
Proof.
  intros Hget Hstate.
  destruct (run_cases p)
    as [(c & -> & _)|[(data & Hget' & _)
       |[(u & n & r & _ & _ & _ & _ & ->)|(u & r & d & _ & Hstate' & _)]]];
    [done|congruence| |congruence].
  cbn. intros [= <-] Hw. unfold after_write. by rewrite Hw.
Qed.

(** *** Error and edge behaviour of a run *)

(** X10.  A read that fails with anything but a 404 is reported as "error
    getting user", and nothing is written. *)
Theorem fetch_error_is_reported p e :
  server (get_request p) = Raise e →
  e ≠ HTTPError 404 →
  run server pbkdf2 p
  = ([get_request p], Exited (fail_report (error_getting_user e))).
Proof.
  intros Hget Hne. unfold run, main, mbind, M_bind, try_except.
  unfold couchdb_user_get, open_url. cbn.
  change {| req_method := GET;
            req_url := couchdb_user_url
                         (param_login_host p, param_login_port p)
                         (VStr (param_name p));
            req_data := None;
            url_username := param_login_user p;
            url_password := param_login_password p |}
    with (get_request p).
  rewrite Hget. destruct e as [code| | | |]; try reflexivity.
  destruct (code =? 404)%Z eqn:Heq; [|reflexivity].
  apply Z.eqb_eq in Heq. by subst.
Qed.

(** X11.  An account that is absent and desired absent: the read is the
    only request and the module exits with changed=false. *)
Theorem absent_account_stays_absent p :
  server (get_request p) = Raise (HTTPError 404) →
  param_state p = absent →
  run server pbkdf2 p
  = ([get_request p], Exited (exit_report false (param_name p))).
Proof.
  intros Hget Hstate. unfold run, main, mbind, M_bind, try_except.
  change (param_login_host p, param_login_port p) with (host_of p).
  change (param_login_user p, param_login_password p) with (credentials_of p).
  rewrite (get_not_found _ _ Hget), Hstate. reflexivity.
Qed.

(** X12.  Deleting a record that lacks its name or its revision: the
    KeyError is reported as "error deleting user" and no DELETE is sent. *)
Theorem delete_of_incomplete_record_is_reported p userobj :
  server (get_request p) = Ok userobj →
  param_state p = absent →
  userobj !! "name" = None ∨ userobj !! "_rev" = None →
  ∃ key,
    run server pbkdf2 p
    = ([get_request p],
       Exited (fail_report (error_deleting_user (KeyError key)))).
Proof.
  intros Hget Hstate Hmiss. unfold run, main, mbind, M_bind, try_except.
  change (param_login_host p, param_login_port p) with (host_of p).
  change (param_login_user p, param_login_password p) with (credentials_of p).
  rewrite (get_found _ _ _ Hget), Hstate. cbn.
  unfold couchdb_user_delete, getitem.
  destruct (userobj !! "name") as [name|] eqn:Hname;
    [|by exists "name"].
  destruct Hmiss as [?|Hrev]; [done|]. rewrite Hrev. by exists "_rev".
Qed.


(** X14.  Roles are compared as sets.  For an account without derived
    credential and with no desired password, fetched roles that have the
    same elements as the desired ones (in any order, with any repetition)
    mean no write and changed=false. *)
Theorem same_role_set_no_write p userobj l :
  param_state p = present →
  server (get_request p) = Ok userobj →
  unsupported_scheme userobj = false →
  param_password p = None →
  userobj !! "derived_key" = None →
  userobj !! "roles" = Some (VList l) →
  (∀ role, role ∈ l ↔ role ∈ normalize_roles (param_roles p)) →
  run server pbkdf2 p
  = ([get_request p], Exited (exit_report false (param_name p))).
Proof.
  intros Hstate Hget Hscheme Hpw Hdk Hroles Hsame.
  rewrite (run_present_found _ _ Hstate Hget).
  unfold check_password_and_roles, getitem.
  unfold unsupported_scheme in Hscheme.
  rewrite Hscheme, Hpw, Hdk, Hroles.
  unfold mbind, M_bind, mret, M_ret. cbn.
  assert (list_to_set l
          = (list_to_set (normalize_roles (param_roles p)) : gset string))
    as -> by (apply set_eq; intros x; rewrite !elem_of_list_to_set;
              apply Hsame).
  rewrite !bool_decide_eq_false_2 by (intros H; by apply H).
  reflexivity.
Qed.


(** X16.  An exception of the key derivation (a salt or an iteration count
    it does not accept) leaves the module uncaught, with nothing written. *)
Theorem verifier_error_is_uncaught p userobj pw dk salt iterations e :
  param_state p = present →
  server (get_request p) = Ok userobj →
  unsupported_scheme userobj = false →
  param_password p = Some pw →
  userobj !! "derived_key" = Some dk →
  userobj !! "salt" = Some salt →
  userobj !! "iterations" = Some iterations →
  pbkdf2 pw salt iterations = Raise e →
  run server pbkdf2 p = ([get_request p], Thrown e).
Proof.
  intros Hstate Hget Hscheme Hpw Hdk Hsalt Hit Hkdf.
  rewrite (run_present_found _ _ Hstate Hget).
  unfold check_password_and_roles, getitem.
  unfold unsupported_scheme in Hscheme.
  rewrite Hscheme, Hpw, Hdk, Hsalt, Hit.
  assert (couchdb_user_valid_password pbkdf2 pw salt dk (Some iterations)
          = Raise e) as Hvalid
    by (unfold couchdb_user_valid_password; cbn; by rewrite Hkdf).
  unfold mbind, M_bind, mret, M_ret.
  cbn -[couchdb_user_valid_password]. rewrite Hvalid. reflexivity.
Qed.

(** X17.  A fetched record whose roles are missing, or are not iterable,
    makes the comparison of roles raise; the exception is uncaught and
    nothing is written.  (Stated for a record without derived credential,
    where the password step cannot fail first.) *)
Theorem unreadable_roles_raise p userobj :
  param_state p = present →
  server (get_request p) = Ok userobj →
  unsupported_scheme userobj = false →
  userobj !! "derived_key" = None →
  match userobj !! "roles" with
  | None => True
  | Some rv => ∃ e, py_set rv = Raise e
  end →
  ∃ e, run server pbkdf2 p = ([get_request p], Thrown e)
       ∧ (userobj !! "roles" = None → e = KeyError "roles").
Proof.
  intros Hstate Hget Hscheme Hdk Hroles.
  rewrite (run_present_found _ _ Hstate Hget).
  unfold check_password_and_roles, getitem.
  unfold unsupported_scheme in Hscheme.
  rewrite Hscheme, Hdk.
  unfold mbind, M_bind, mret, M_ret.
  destruct (userobj !! "roles") as [rv|].
  - destruct Hroles as [e He]. exists e.
    destruct (param_password p); cbn -[py_set]; rewrite He; done.
  - exists (KeyError "roles"). by destruct (param_password p).
Qed.

(** *** [couchdb_user_create] on its own *)

(** X18.  Roles that are neither [None] nor a list are refused with a
    TypeError before anything else is looked at, and nothing is sent. *)
Theorem create_refuses_roles_that_are_no_list host credentials username
    password roles rev derived_key salt iterations log :
  roles ≠ VNone →
  (∀ l, roles ≠ VList l) →
  couchdb_user_create server host credentials username
    password roles rev derived_key salt iterations log
  = (log, Thrown (TypeError "roles should be a list or tuple")).
Proof.
  intros Hnone Hlist. unfold couchdb_user_create.
  destruct roles as [| | | |l]; try done. by destruct (Hlist l).
Qed.

(** X19.  When exactly one of [derived_key] and [salt] is a non-empty
    value, the call raises "one of derived_key or salt is missing" and
    nothing is sent (unless the earlier checks already raised). *)
Theorem create_needs_key_and_salt_together host credentials username
    password roles rev derived_key salt iterations log :
  is_None roles = true ∨ (∃ l, roles = VList l) →
  is_None password = true ∨ is_None derived_key = true →
  truthy derived_key ≠ truthy salt →
  couchdb_user_create server host credentials username
    password roles rev derived_key salt iterations log
  = (log, Thrown (ValueError "one of derived_key or salt is missing")).
Proof.
  intros Hroles Hone Hne. unfold couchdb_user_create.
  assert (∃ l, (if is_None roles then VList [] else roles) = VList l)
    as [l ->]
    by (destruct Hroles as [->|[l ->]]; by eexists).
  assert (negb (is_None password) && negb (is_None derived_key) = false)
    as -> by (destruct Hone as [->| ->]; by rewrite ?andb_false_r).
  by destruct (truthy derived_key), (truthy salt).
Qed.

(** X20.  Called with a derived credential and no password, the call sends
    one PUT whose payload is name, roles ([] when none are given), type and
    the three credential fields, iterations being 10 when none is given;
    it returns [True] when the server accepts the PUT and raises the
    server's exception otherwise. *)
Theorem create_with_derived_credential host credentials username
    roles rev derived_key salt iterations log :
  is_None roles = true ∨ (∃ l, roles = VList l) →
  truthy derived_key = true →
  truthy salt = true →
  let req :=
    {| req_method := PUT;
       req_url :=
         {| url_host := host.1; url_port := host.2;
            url_user := VStr username;
            url_rev := if is_None rev then None else Some rev |};
       req_data :=
         Some {[ "name" := VStr username;
                 "roles" := if is_None roles then VList [] else roles;
                 "type" := VStr "user";
                 "derived_key" := derived_key;
                 "salt" := salt;
                 "iterations" :=
                   if is_None iterations then VInt 10 else iterations ]};
       url_username := credentials.1;
       url_password := credentials.2 |} in
  couchdb_user_create server host credentials username
    VNone roles rev derived_key salt iterations log
  = ((log ++ [req])%list,
     match server req with
     | Ok _ => Done true
     | Raise e => Thrown e
     end).
Proof.
  intros Hroles Hdk Hsalt req. subst req.
  assert (∃ l, (if is_None roles then VList [] else roles) = VList l)
    as [l Hl]
    by (destruct Hroles as [->|[l ->]]; by eexists).
  assert (({[ "name" := VStr username;
              "roles" := if is_None roles then VList [] else roles;
              "type" := VStr "user";
              "derived_key" := derived_key;
              "salt" := salt;
              "iterations" :=
                if is_None iterations then VInt 10 else iterations ]}
           : gmap string value)
          = <["iterations" :=
                if is_None iterations then VInt 10 else iterations]>
              (<["salt" := salt]>
                 (<["derived_key" := derived_key]>
                    (<["type" := VStr "user"]>
                       (<["roles" := VList l]>
                          (<["name" := VStr username]> ∅))))))
    as -> by (rewrite Hl; reflexivity).
  unfold couchdb_user_create. rewrite Hl, Hdk, Hsalt. cbn.
  assert (is_None derived_key = false) as -> by (by destruct derived_key).
  unfold mbind, M_bind, open_url, couchdb_user_url, with_rev. cbn.
  destruct (is_None rev); cbn; case_server.
Qed.

(** *** The digest text *)

Lemma hex_digit_lower n : lower_hex (hex_digit n) = true.
Proof.
  unfold hex_digit. repeat case_match; reflexivity.
Qed.

Lemma hex_digits_back c :
  byte_of_hex (hex_digit (N_of_ascii c / 16))
    (hex_digit (N_of_ascii c mod 16)) = c.
Proof. destruct c as [[] [] [] [] [] [] [] []]; reflexivity. Qed.

(** [hexlify] writes two lowercase hexadecimal digits for each byte. *)
Lemma hexlify_digits s :
  String.length (hexlify s) = 2 * String.length s
  ∧ Forall (λ c, lower_hex c = true) (list_ascii_of_string (hexlify s)).
Proof.
  induction s as [|c s [IHlen IHhex]]; [split; [reflexivity|constructor]|].
  split.
  - cbn [hexlify String.length]. rewrite IHlen. lia.
  - cbn [hexlify list_ascii_of_string].
    do 2 (constructor; [apply hex_digit_lower|]). exact IHhex.
Qed.

(** [hexlify] loses nothing: different byte strings have different digest
    texts. *)
Lemma hexlify_inj s1 s2 : hexlify s1 = hexlify s2 ↔ s1 = s2.
Proof.
  split; [|by intros ->].
  revert s2. induction s1 as [|c1 s1 IH]; intros [|c2 s2]; cbn;
    try done.
  intros [= Hhi Hlo Hrest]. f_equal; [|by apply IH].
  by rewrite <- (hex_digits_back c1), <- (hex_digits_back c2), Hhi, Hlo.
Qed.

(** X21.  The verifier only accepts a stored digest that is a string of
    lowercase hexadecimal digits, two per byte of the derived key: a digest
    stored in uppercase, or one that is no string, never verifies. *)
Theorem verified_digest_is_lower_hex plaintext salt hash_ rounds :
  couchdb_user_valid_password pbkdf2 plaintext salt hash_ rounds = Ok true →
  ∃ h, hash_ = VStr h
       ∧ Nat.Even (String.length h)
       ∧ Forall (λ c, lower_hex c = true) (list_ascii_of_string h).
Proof.
  intros H. destruct (valid_password_true _ _ _ _ H) as (k & _ & ->).
  exists (hexlify k). split; [done|].
  destruct (hexlify_digits k) as [Hlen Hhex]. split; [|done].
  rewrite Hlen. by exists (String.length k).
Qed.

(** X22.  Against the digest text of a key, the verifier answers true
    exactly when the derivation yields that key. *)
Theorem verifier_decides_the_key plaintext salt key rounds :
  couchdb_user_valid_password pbkdf2 plaintext salt (VStr (hexlify key))
    (Some rounds) = Ok true
  ↔ pbkdf2 plaintext salt rounds = Ok key.
Proof.
  split.
  - intros H. destruct (valid_password_true _ _ _ _ H) as (k & Hk & Heq).
    injection Heq as Heq. apply (proj1 (hexlify_inj _ _)) in Heq.
    subst k. exact Hk.
  - intros H. unfold couchdb_user_valid_password, mbind, res_bind. cbn.
    rewrite H. cbn. by rewrite bool_decide_eq_true_2.
Qed.

End properties.

(** ** Concrete runs, checked *)

Example hexlify_bar : hexlify "bar" = "626172".
Proof. reflexivity. Qed.


Lemma create_when_absent_witness :
  run server_without toy_pbkdf2
    (bob (Some "bar") (Some ["admin"; "reader"]) present)
  = ([get_request (bob (Some "bar") (Some ["admin"; "reader"]) present);
      put_request (bob (Some "bar") (Some ["admin"; "reader"]) present) None
        {[ "name" := VStr "bob"; "roles" := VList ["admin"; "reader"];
           "type" := VStr "user"; "password" := VStr "bar" ]}],
     Exited (exit_report true "bob")).
Proof.
  apply (create_when_absent server_without toy_pbkdf2
           (bob (Some "bar") (Some ["admin"; "reader"]) present) ∅);
    reflexivity.
Defined.

(** The create of the module's own example, [name=bob password=bar
    state=present] with no roles. *)
Example create_bob :
  run server_without toy_pbkdf2 (bob (Some "bar") (Some []) present)
  = ([get_request (bob (Some "bar") (Some []) present);
      put_request (bob (Some "bar") (Some []) present) None
        {[ "name" := VStr "bob"; "roles" := VList [];
           "type" := VStr "user"; "password" := VStr "bar" ]}],
     Exited (exit_report true "bob")).
Proof. reflexivity. Qed.

Lemma delete_when_present_witness :
  run (server_with bob_doc) toy_pbkdf2 (bob None (Some []) absent)
  = ([get_request (bob None (Some []) absent);
      delete_request (bob None (Some []) absent) (VStr "bob") (VStr "3-abc")],
     Exited (exit_report true "bob")).
Proof.
  apply (delete_when_present (server_with bob_doc) toy_pbkdf2
           (bob None (Some []) absent) bob_doc (VStr "bob") (VStr "3-abc") ∅);
    reflexivity.
Defined.

Lemma matching_password_no_write_witness :
  run (server_with bob_doc) toy_pbkdf2
    (bob (Some "bar") (Some ["reader"]) present)
  = ([get_request (bob (Some "bar") (Some ["reader"]) present)],
     Exited (exit_report false "bob")).
Proof.
  apply (matching_password_no_write (server_with bob_doc) toy_pbkdf2
           (bob (Some "bar") (Some ["reader"]) present) bob_doc
           "bar" (VStr "626172") (VStr "s") (VInt 10) (VList ["reader"]));
    reflexivity.
Defined.

Lemma no_password_same_roles_update_witness :
  run (server_with bob_doc) toy_pbkdf2 (bob None (Some ["reader"]) present)
  = ([get_request (bob None (Some ["reader"]) present);
      put_request (bob None (Some ["reader"]) present) (Some (VStr "3-abc"))
        {[ "name" := VStr "bob"; "roles" := VList [];
           "type" := VStr "user" ]}],
     Exited (exit_report true "bob")).
Proof.
  apply (no_password_same_roles_update (server_with bob_doc) toy_pbkdf2
           (bob None (Some ["reader"]) present) bob_doc
           (VStr "626172") (VList ["reader"]) (VStr "3-abc") ∅);
    reflexivity.
Defined.





Lemma unsupported_scheme_fails_witness :
  run (server_with (<["password_scheme" := VStr "bcrypt"]> bob_doc))
    toy_pbkdf2 (bob (Some "bar") (Some ["reader"]) present)
  = ([get_request (bob (Some "bar") (Some ["reader"]) present)],
     Exited (fail_report (unsupported_password_scheme (VStr "bcrypt")))).
Proof.
  apply (unsupported_scheme_fails
           (server_with (<["password_scheme" := VStr "bcrypt"]> bob_doc))
           toy_pbkdf2 (bob (Some "bar") (Some ["reader"]) present)
           (<["password_scheme" := VStr "bcrypt"]> bob_doc) (VStr "bcrypt"));
    try reflexivity.
  discriminate.
Defined.

(** Two runs on a record whose scheme is present and is not 'pbkdf2' that do
    not end in the unsupported-scheme failure: with the desired state absent
    the record is deleted, and a scheme that is the empty string passes the
    check. *)
Lemma unsupported_scheme_not_checked :
  run (server_with (<["password_scheme" := VStr "bcrypt"]> bob_doc))
    toy_pbkdf2 (bob None (Some []) absent)
  = ([get_request (bob None (Some []) absent);
      delete_request (bob None (Some []) absent) (VStr "bob") (VStr "3-abc")],
     Exited (exit_report true "bob"))
  ∧ run (server_with (<["password_scheme" := VStr ""]> bob_doc))
      toy_pbkdf2 (bob (Some "bar") (Some ["reader"]) present)
    = ([get_request (bob (Some "bar") (Some ["reader"]) present)],
       Exited (exit_report false "bob")).
Proof. split; reflexivity. Qed.

(** C4 fails on the code.  The record has derived_key and salt but no
    iterations, and a password is desired: [userobj['iterations']] raises
    KeyError before the verifier is called, nothing catches it, and the
    module ends with that exception instead of verifying with 10 rounds. *)
Theorem missing_iterations_raises pbkdf2 :
  bob_doc_old !! "derived_key" = Some (VStr "626172")
  ∧ bob_doc_old !! "salt" = Some (VStr "s")
  ∧ bob_doc_old !! "iterations" = None
  ∧ run (server_with bob_doc_old) pbkdf2
      (bob (Some "bar") (Some ["reader"]) present)
    = ([get_request (bob (Some "bar") (Some ["reader"]) present)],
       Thrown (KeyError "iterations")).
Proof.
  do 3 (split; [reflexivity|]).
  by apply (no_iterations_key_error _ _ _ bob_doc_old "bar"
              (VStr "626172") (VStr "s")).
Qed.

(** *** More runs *)

Lemma changed_iff_write_accepted_witness :
  "bob" = "bob"
  ∧ (true = true
     ↔ ∃ w body,
         (run server_without toy_pbkdf2
            (bob (Some "bar") (Some []) present)).1
         = [get_request (bob (Some "bar") (Some []) present); w]
         ∧ server_without w = Ok body).
Proof.
  apply (changed_iff_write_accepted server_without toy_pbkdf2
           (bob (Some "bar") (Some []) present) true "bob").
  reflexivity.
Defined.

Lemma update_carries_fetched_revision_witness :
  PUT = PUT
  ∧ ∃ rev, bob_doc !! "_rev" = Some rev
           ∧ Some (VStr "3-abc") = (if is_None rev then None else Some rev).
Proof.
  apply (update_carries_fetched_revision (server_with bob_doc) toy_pbkdf2
           (bob None (Some ["reader"]) present) bob_doc
           (put_request (bob None (Some ["reader"]) present)
              (Some (VStr "3-abc")) (base_payload "bob" [])));
    reflexivity.
Defined.

Lemma rejected_update_is_uncaught_witness :
  (run (server_rejecting bob_doc (HTTPError 409)) toy_pbkdf2
     (bob None (Some ["reader"]) present)).2
  = Thrown (HTTPError 409).
Proof.
  apply (rejected_update_is_uncaught
           (server_rejecting bob_doc (HTTPError 409)) toy_pbkdf2
           (bob None (Some ["reader"]) present) bob_doc
           (put_request (bob None (Some ["reader"]) present)
              (Some (VStr "3-abc")) (base_payload "bob" [])));
    reflexivity.
Defined.

Lemma rejected_create_is_reported_witness :
  (run (server_without_rejecting (HTTPError 500)) toy_pbkdf2
     (bob (Some "bar") (Some []) present)).2
  = Exited (fail_report (error_creating_user (HTTPError 500))).
Proof.
  apply (rejected_create_is_reported
           (server_without_rejecting (HTTPError 500)) toy_pbkdf2
           (bob (Some "bar") (Some []) present)
           (put_request (bob (Some "bar") (Some []) present) None
              (<["password" := VStr "bar"]> (base_payload "bob" []))));
    reflexivity.
Defined.

Lemma rejected_delete_is_reported_witness :
  (run (server_rejecting bob_doc (HTTPError 409)) toy_pbkdf2
     (bob None (Some []) absent)).2
  = Exited (fail_report (error_deleting_user (HTTPError 409))).
Proof.
  apply (rejected_delete_is_reported
           (server_rejecting bob_doc (HTTPError 409)) toy_pbkdf2
           (bob None (Some []) absent) bob_doc
           (delete_request (bob None (Some []) absent)
              (VStr "bob") (VStr "3-abc")));
    reflexivity.
Defined.

Lemma fetch_error_is_reported_witness :
  run (server_down (HTTPError 500)) toy_pbkdf2
    (bob (Some "bar") (Some []) present)
  = ([get_request (bob (Some "bar") (Some []) present)],
     Exited (fail_report (error_getting_user (HTTPError 500)))).
Proof.
  apply (fetch_error_is_reported (server_down (HTTPError 500)) toy_pbkdf2
           (bob (Some "bar") (Some []) present) (HTTPError 500));
    [reflexivity|discriminate].
Defined.

Lemma absent_account_stays_absent_witness :
  run server_without toy_pbkdf2 (bob None (Some []) absent)
  = ([get_request (bob None (Some []) absent)],
     Exited (exit_report false "bob")).
Proof.
  apply (absent_account_stays_absent server_without toy_pbkdf2
           (bob None (Some []) absent)); reflexivity.
Defined.

Lemma delete_of_incomplete_record_is_reported_witness :
  ∃ key,
    run (server_with (delete "_rev" bob_doc)) toy_pbkdf2
      (bob None (Some []) absent)
    = ([get_request (bob None (Some []) absent)],
       Exited (fail_report (error_deleting_user (KeyError key)))).
Proof.
  apply (delete_of_incomplete_record_is_reported
           (server_with (delete "_rev" bob_doc)) toy_pbkdf2
           (bob None (Some []) absent) (delete "_rev" bob_doc));
    [reflexivity|reflexivity|right; reflexivity].
Defined.


Lemma same_role_set_no_write_witness :
  run (server_with bob_doc_plain) toy_pbkdf2
    (bob None (Some ["reader"; "reader"]) present)
  = ([get_request (bob None (Some ["reader"; "reader"]) present)],
     Exited (exit_report false "bob")).
Proof.
  apply (same_role_set_no_write (server_with bob_doc_plain) toy_pbkdf2
           (bob None (Some ["reader"; "reader"]) present) bob_doc_plain
           ["reader"]);
    try reflexivity.
  intros role.
  change (normalize_roles _) with ["reader"; "reader"].
  rewrite !elem_of_cons. tauto.
Defined.


Lemma verifier_error_is_uncaught_witness :
  run (server_with bob_doc) refusing_pbkdf2
    (bob (Some "bar") (Some ["reader"]) present)
  = ([get_request (bob (Some "bar") (Some ["reader"]) present)],
     Thrown (TypeError "rounds must be an integer")).
Proof.
  apply (verifier_error_is_uncaught (server_with bob_doc) refusing_pbkdf2
           (bob (Some "bar") (Some ["reader"]) present) bob_doc "bar"
           (VStr "626172") (VStr "s") (VInt 10));
    reflexivity.
Defined.

Lemma unreadable_roles_raise_witness :
  ∃ e,
    run (server_with (delete "roles" bob_doc_plain)) toy_pbkdf2
      (bob None (Some ["reader"]) present)
    = ([get_request (bob None (Some ["reader"]) present)], Thrown e)
    ∧ (delete "roles" bob_doc_plain !! "roles" = None
       → e = KeyError "roles").
Proof.
  apply (unreadable_roles_raise (server_with (delete "roles" bob_doc_plain))
           toy_pbkdf2 (bob None (Some ["reader"]) present)
           (delete "roles" bob_doc_plain));
    first [reflexivity|exact I].
Defined.

Lemma create_refuses_roles_that_are_no_list_witness :
  couchdb_user_create server_without ("localhost", 5984%Z) (None, None)
    "bob" (VStr "bar") (VStr "admin") VNone VNone VNone VNone []
  = ([], Thrown (TypeError "roles should be a list or tuple")).
Proof.
  apply (create_refuses_roles_that_are_no_list server_without
           ("localhost", 5984%Z) (None, None) "bob" (VStr "bar")
           (VStr "admin") VNone VNone VNone VNone []);
    [discriminate|intros l; discriminate].
Defined.

Lemma create_needs_key_and_salt_together_witness :
  couchdb_user_create server_without ("localhost", 5984%Z) (None, None)
    "bob" VNone VNone VNone (VStr "626172") VNone VNone []
  = ([], Thrown (ValueError "one of derived_key or salt is missing")).
Proof.
  apply (create_needs_key_and_salt_together server_without
           ("localhost", 5984%Z) (None, None) "bob" VNone VNone VNone
           (VStr "626172") VNone VNone []);
    [left; reflexivity|left; reflexivity|discriminate].
Defined.

Lemma create_with_derived_credential_witness :
  couchdb_user_create server_without ("localhost", 5984%Z) (None, None)
    "bob" VNone VNone (VStr "3-abc") (VStr "626172") (VStr "s") VNone []
  = ([ {| req_method := PUT;
          req_url :=
            {| url_host := "localhost"; url_port := 5984;
               url_user := VStr "bob"; url_rev := Some (VStr "3-abc") |};
          req_data :=
            Some {[ "name" := VStr "bob"; "roles" := VList [];
                    "type" := VStr "user";
                    "derived_key" := VStr "626172"; "salt" := VStr "s";
                    "iterations" := VInt 10 ]};
          url_username := None; url_password := None |} ],
     Done true).
Proof.
  apply (create_with_derived_credential server_without
           ("localhost", 5984%Z) (None, None) "bob" VNone (VStr "3-abc")
           (VStr "626172") (VStr "s") VNone []);
    [left; reflexivity|reflexivity|reflexivity].
Defined.

Lemma verified_digest_is_lower_hex_witness :
  ∃ h, VStr "626172" = VStr h
       ∧ Nat.Even (String.length h)
       ∧ Forall (λ c, lower_hex c = true) (list_ascii_of_string h).
Proof.
  apply (verified_digest_is_lower_hex toy_pbkdf2 "bar" (VStr "s")
           (VStr "626172") (Some (VInt 10))).
  reflexivity.
Defined.
